(** * xmlschema/validator.py: the validator base class

    A shallow embedding of [XMLSchemaValidator]: the validity tracker
    ([check], [checked], [valid], [validity], [validation_attempted]) and the
    decode/encode drivers ([validate], [iter_errors], [is_valid], [decode],
    [encode]) layered over the abstract generators [iter_decode] and
    [iter_encode]. *)

From Stdlib Require Import ZArith SpecFloat.
From stdpp Require Import gmap strings list fin_maps.

Local Open Scope string_scope.

(** ** Python values

    The objects that flow through the class: tokens, the validity flag,
    keyword arguments, decoded chunks.  [VFloat] is a float, a binary64
    number in the form of [spec_float], with its zeros, infinities and NaN.
    [VError] is an instance of [XMLSchemaValidationError] (or of a
    subclass); instances are compared by identity, which [oid] stands
    for. *)
Inductive value : Type :=
| VNone
| VBool (b : bool)
| VInt (n : Z)
| VFloat (f : spec_float)
| VStr (s : string)
| VError (oid : positive) (reason : string).

#[global] Instance spec_float_eq_dec : EqDecision spec_float.
Proof. solve_decision. Defined.

#[global] Instance value_eq_dec : EqDecision value.
Proof. solve_decision. Defined.

(** A float compared with an integer: the comparison is exact, a float is
    equal to [n] when it is finite and its value [(-1)^s * m * 2^e] is
    [n]. *)
Definition float_eq_int (f : spec_float) (n : Z) : bool :=
  match f with
  | S754_zero _ => Z.eqb n 0
  | S754_finite s m e =>
      let signed := if s then Z.neg m else Z.pos m in
      if Z.leb 0 e then Z.eqb n (signed * 2 ^ e)
      else Z.eqb (n * 2 ^ (- e)) signed
  | _ => false
  end.

(** Python's [a == b] on these objects.  [bool] is a subclass of [int], so
    [True == 1] and [False == 0]; numbers compare by value; a NaN is equal
    to nothing, itself included. *)
Definition py_eq (a b : value) : bool :=
  match a, b with
  | VNone, VNone => true
  | VBool x, VBool y => Bool.eqb x y
  | VBool x, VInt n => Z.eqb (Z.b2z x) n
  | VInt n, VBool y => Z.eqb n (Z.b2z y)
  | VInt n, VInt m => Z.eqb n m
  | VFloat f, VFloat f' => SFeqb f f'
  | VFloat f, VInt n => float_eq_int f n
  | VInt n, VFloat f => float_eq_int f n
  | VFloat f, VBool y => float_eq_int f (Z.b2z y)
  | VBool x, VFloat f => float_eq_int f (Z.b2z x)
  | VStr s, VStr t => String.eqb s t
  | VError i _, VError j _ => Pos.eqb i j
  | _, _ => false
  end.

(** The value is a float NaN. *)
Definition is_nan (v : value) : bool :=
  match v with VFloat S754_nan => true | _ => false end.

(** [v is True], [v is False], [v is None]: identity with the singletons. *)
Definition is_True (v : value) : bool :=
  match v with VBool true => true | _ => false end.
Definition is_False (v : value) : bool :=
  match v with VBool false => true | _ => false end.
Definition is_None (v : value) : bool :=
  match v with VNone => true | _ => false end.

(** [isinstance(chunk, XMLSchemaValidationError)]. *)
Definition isinstance_XMLSchemaValidationError (chunk : value) : bool :=
  match chunk with VError _ _ => true | _ => false end.

(** ** Exceptions and results *)
Inductive exn : Type :=
| NotImplementedError
| AttributeError (name : string)
| TypeError
| XMLSchemaValueError (v : value)
| Raised (v : value).          (* [raise chunk], chunk an exception instance *)

#[global] Instance exn_eq_dec : EqDecision exn.
Proof. solve_decision. Defined.

Inductive result (A : Type) : Type :=
| Ok (a : A)
| Raise (e : exn).
Arguments Ok {A} a.
Arguments Raise {A} e.

(** The exception is a validation error: an [XMLSchemaValidationError]
    instance that was raised. *)
Definition is_validation_exn (e : exn) : bool :=
  match e with
  | Raised v => isinstance_XMLSchemaValidationError v
  | _ => false
  end.

Definition XSD_VALIDATION_MODES : gset string := {[ "strict"; "lax"; "skip" ]}.

(** ** Instances and the state-and-exception monad

    An instance is its attribute dictionary.  A method threads the instance
    and may raise; the instance is returned in both cases, as what was
    assigned before an exception stays assigned. *)
Abbreviation instance := (gmap string value).

Definition M (A : Type) : Type := instance -> result A * instance.

Definition ret {A} (a : A) : M A := fun self => (Ok a, self).

Definition bind {A B} (m : M A) (k : A -> M B) : M B :=
  fun self =>
    match m self with
    | (Ok a, self') => k a self'
    | (Raise e, self') => (Raise e, self')
    end.

Definition lift {A} (r : result A) : M A := fun self => (r, self).

Notation "'let!' x ':=' m 'in' k" := (bind m (fun x => k))
  (at level 10, x name, m at level 100, k at level 200).

(** [self.name] for a data attribute. *)
Definition getattr (name : string) : M value :=
  fun self =>
    match self !! name with
    | Some v => (Ok v, self)
    | None => (Raise (AttributeError name), self)
    end.

(** Modelled from the spec: [utils.check_value] is imported by validator.py
    and is not part of the sources.  The spec says of the assignment it
    guards that the field may only take the admitted values and that
    assigning any other value is rejected: the helper raises unless [v] is
    one of [admitted]. *)
Definition check_value (v : value) (admitted : list value) : result unit :=
  if bool_decide (v ∈ admitted) then Ok tt else Raise (XMLSchemaValueError v).

(** The properties of the class; none of them has a setter. *)
Definition read_only_properties : list string :=
  ["check_token"; "checked"; "valid"; "validity"; "validation_attempted"].

(** [object.__setattr__], reached through [super()]: the name of a property
    without setter is refused, any other name is stored in the instance. *)
Definition object_setattr (name : string) (v : value) : M unit :=
  fun self =>
    if bool_decide (name ∈ read_only_properties)
    then (Raise (AttributeError name), self)
    else (Ok tt, <[name := v]> self).

(** [XMLSchemaValidator.__setattr__]. *)
Definition __setattr__ (name : string) (v : value) : M unit :=
  fun self =>
    if String.eqb name "_valid" then
      match check_value v [VNone; VBool true; VBool false] with
      | Ok _ => object_setattr name v self
      | Raise e => (Raise e, self)
      end
    else object_setattr name v self.

(** [XMLSchemaValidator.__init__], run on the new, empty object. *)
Definition __init__ : M unit :=
  let! _ := __setattr__ "_check_token" VNone in
  __setattr__ "_valid" VNone.

(** The instance as [__init__] leaves it. *)
Definition new_instance : instance := snd (__init__ ∅).

(** ** Generators

    A generator is what it will do when resumed: stop, yield an item and
    suspend, or raise.  The streams of the class are finite. *)
Inductive gen (A : Type) : Type :=
| GStop
| GYield (a : A) (k : gen A)
| GRaise (e : exn).
Arguments GStop {A}.
Arguments GYield {A} a k.
Arguments GRaise {A} e.

(** One resumption, as [next] sees it. *)
Inductive step (A : Type) : Type :=
| Yielded (a : A)
| StopIteration
| Raising (e : exn).
Arguments Yielded {A} a.
Arguments StopIteration {A}.
Arguments Raising {A} e.

(** Resume once; a generator that stopped or raised is finished. *)
Definition gen_next {A} (it : gen A) : step A * gen A :=
  match it with
  | GYield a k => (Yielded a, k)
  | GStop => (StopIteration, GStop)
  | GRaise e => (Raising e, GStop)
  end.

(** The builtin [next(it, default)]. *)
Definition py_next {A} (it : gen A) (default : A) : result A * gen A :=
  match gen_next it with
  | (Yielded a, it') => (Ok a, it')
  | (StopIteration, it') => (Ok default, it')
  | (Raising e, it') => (Raise e, it')
  end.

(** The items a generator yields when it is run to its end, and how it ends. *)
Fixpoint gen_items {A} (it : gen A) : list A :=
  match it with
  | GYield a k => a :: gen_items k
  | _ => []
  end.

Fixpoint gen_end {A} (it : gen A) : result unit :=
  match it with
  | GYield _ k => gen_end k
  | GStop => Ok tt
  | GRaise e => Raise e
  end.

(** The generator that yields the items of [l] and then behaves as [k]. *)
Fixpoint yield_all {A} (l : list A) (k : gen A) : gen A :=
  match l with
  | [] => k
  | a :: l' => GYield a (yield_all l' k)
  end.

(** A [for x in it: body] loop whose body may leave the function (with a
    [return] or a [raise]) or fall through to the next item; [orelse] is what
    the function does when the loop ends. *)
Fixpoint for_in {A B} (it : gen A) (body : A -> option (result B))
    (orelse : result B) : result B :=
  match it with
  | GStop => orelse
  | GRaise e => Raise e
  | GYield a k =>
      match body a with
      | Some r => r
      | None => for_in k body orelse
      end
  end.

(** ** The class: the operations a concrete component supplies

    [check_token] is a property that reads the token kept by the object
    holding the global maps, [G] here.  [iter_decode] and [iter_encode]
    receive the data, the positional arguments and the keyword arguments as
    the callers below pass them; the call itself may raise. *)
Record validator_class (G : Type) : Type := {
  check_token : G -> result value;
  iter_decode : value -> list value -> gmap string value -> result (gen value);
  iter_encode : value -> list value -> gmap string value -> result (gen value)
}.
Arguments check_token {G} _ _.
Arguments iter_decode {G} _ _ _ _.
Arguments iter_encode {G} _ _ _ _.

(** The parameters of the base [iter_decode] and [iter_encode], in order. *)
Definition iter_decode_parameters : list string :=
  ["self"; "data"; "path"; "validation"; "process_namespaces"; "namespaces";
   "use_defaults"; "decimal_type"; "converter"; "dict_class"; "list_class"].

Definition iter_encode_parameters : list string :=
  ["self"; "data"; "path"; "validation"; "namespaces"; "indent";
   "element_class"; "converter"].

(** The call [self.f(data, *args, **kwargs)] of a method with the given
    parameters, none of them starred and all after [data] with a default:
    [self], [data] and [args] take the first parameters in order, and every
    keyword must name one of the parameters that are left.  Too many
    positional arguments, a keyword for a parameter given by position, or a
    keyword that is no parameter, is a [TypeError]. *)
Definition bind_arguments (parameters : list string) (args : list value)
    (kwargs : gmap string value) : result unit :=
  let positional := 2 + length args in
  if bool_decide (positional <= length parameters /\
                  set_Forall (fun k => k ∈ drop positional parameters) (dom kwargs))
  then Ok tt else Raise TypeError.

(** The base class: every abstract operation raises [NotImplementedError];
    for the two methods, once the arguments are bound. *)
Definition XMLSchemaValidator (G : Type) : validator_class G := {|
  check_token := fun _ => Raise NotImplementedError;
  iter_decode := fun _ args kwargs =>
    match bind_arguments iter_decode_parameters args kwargs with
    | Ok _ => Raise NotImplementedError
    | Raise e => Raise e
    end;
  iter_encode := fun _ args kwargs =>
    match bind_arguments iter_encode_parameters args kwargs with
    | Ok _ => Raise NotImplementedError
    | Raise e => Raise e
    end
|}.

(** ** The methods of the class *)
Section Methods.
Context {G : Type} (cls : validator_class G).

(** *** Validity tracker *)

Definition check (g : G) : M unit :=
  let! token := lift (check_token cls g) in
  let! _ := __setattr__ "_check_token" token in
  __setattr__ "_valid" (VBool true).

Definition checked (g : G) : M bool :=
  let! stored := getattr "_check_token" in
  let! token := lift (check_token cls g) in
  ret (py_eq stored token).

Definition valid (g : G) : M value :=
  let! c := checked g in
  if c then getattr "_valid" else ret VNone.

Definition validity (g : G) : M string :=
  let! c := checked g in
  if c then
    let! v := getattr "_valid" in
    if is_True v then ret "valid"
    else
      let! v' := getattr "_valid" in
      if is_False v' then ret "invalid" else ret "notKnown"
  else ret "notKnown".

Definition validation_attempted (g : G) : M string :=
  let! c := checked g in
  if c then ret "full" else ret "none".

(** *** Decode/encode protocol *)

(** The body of the loop of [iter_errors], as a generator over the
    suspended [iter_decode] stream: it yields the chunks that are
    validation errors and passes over the others. *)
Fixpoint iter_errors_loop (it : gen value) : gen value :=
  match it with
  | GStop => GStop
  | GRaise e => GRaise e
  | GYield chunk k =>
      if isinstance_XMLSchemaValidationError chunk
      then GYield chunk (iter_errors_loop k)
      else iter_errors_loop k
  end.

(** [iter_errors(data, path, use_defaults)].  It is a generator function:
    the call of [iter_decode] happens at the first resumption, so an
    exception of that call is raised by the generator. *)
Definition iter_errors (data path use_defaults : value) : gen value :=
  match iter_decode cls data [path]
          (<["validation" := VStr "lax"]> {["use_defaults" := use_defaults]}) with
  | Ok it => iter_errors_loop it
  | Raise e => GRaise e
  end.

(** [validate(data, use_defaults)]: [for error in ...: raise error]. *)
Definition validate (data use_defaults : value) : result value :=
  for_in (iter_errors data VNone use_defaults)
    (fun error => Some (Raise (Raised error)))
    (Ok VNone).

(** [is_valid(data, use_defaults)], with the error iterator as the call
    leaves it. *)
Definition is_valid_pull (data use_defaults : value) : result bool * gen value :=
  match py_next (iter_errors data VNone use_defaults) VNone with
  | (Ok error, it') => (Ok (is_None error), it')
  | (Raise e, it') => (Raise e, it')
  end.

Definition is_valid (data use_defaults : value) : result bool :=
  fst (is_valid_pull data use_defaults).

(** [kwargs.pop('validation', 'strict')]: the value and the remaining
    keyword arguments. *)
Definition pop_validation (kwargs : gmap string value) : value * gmap string value :=
  (default (VStr "strict") (kwargs !! "validation"), delete "validation" kwargs).

(** The body of the loop shared by [decode] and [encode]. *)
Definition first_chunk (validation : value) (chunk : value) : option (result value) :=
  if isinstance_XMLSchemaValidationError chunk && py_eq validation (VStr "strict")
  then Some (Raise (Raised chunk))
  else Some (Ok chunk).

Definition decode (data : value) (args : list value) (kwargs : gmap string value)
    : result value :=
  let '(validation, kwargs') := pop_validation kwargs in
  match iter_decode cls data args (<["validation" := validation]> kwargs') with
  | Raise e => Raise e
  | Ok it => for_in it (first_chunk validation) (Ok VNone)
  end.

Definition to_dict := decode.

Definition encode (data : value) (args : list value) (kwargs : gmap string value)
    : result value :=
  let '(validation, kwargs') := pop_validation kwargs in
  match iter_encode cls data args (<["validation" := validation]> kwargs') with
  | Raise e => Raise e
  | Ok it => for_in it (first_chunk validation) (Ok VNone)
  end.

Definition to_etree := encode.

End Methods.

(** ** Sequences of operations on an instance *)
Section Operations.
Context {G : Type} (cls : validator_class G).

(** What a caller can do with a node: assign an attribute, run [check], or
    read one of the properties. *)
Inductive op : Type :=
| Assign (name : string) (v : value)
| Check (g : G)
| ReadChecked (g : G)
| ReadValid (g : G)
| ReadValidity (g : G)
| ReadValidationAttempted (g : G).

(** The instance after one operation; an exception leaves what the
    operation had assigned until then.  An instance attribute named [check]
    hides the method, and none of the values can be called: [self.check()]
    then raises and assigns nothing.  The properties are looked up on the
    class before the instance. *)
Definition run_op (o : op) (self : instance) : instance :=
  match o with
  | Assign name v => snd (__setattr__ name v self)
  | Check g =>
      if bool_decide (is_Some (self !! "check")) then self
      else snd (check cls g self)
  | ReadChecked g => snd (checked cls g self)
  | ReadValid g => snd (valid cls g self)
  | ReadValidity g => snd (validity cls g self)
  | ReadValidationAttempted g => snd (validation_attempted cls g self)
  end.

Definition run_ops (ops : list op) (self : instance) : instance :=
  fold_left (fun s o => run_op o s) ops self.

End Operations.
Arguments op G : clear implicits.

(** The values [__setattr__] admits for [_valid]. *)
Definition admitted_valid : list value := [VNone; VBool true; VBool false].

(** The stored validity is one of [None], [True], [False]. *)
Definition valid_field_ok (self : instance) : Prop :=
  exists v, self !! "_valid" = Some v /\ v ∈ admitted_valid.

(** ** Shapes of streams *)

(** No chunk of the stream is a validation error. *)
Fixpoint no_errors (it : gen value) : bool :=
  match it with
  | GYield chunk k => negb (isinstance_XMLSchemaValidationError chunk) && no_errors k
  | _ => true
  end.

(** The errors come first: no validation error follows a decoded value
    (the shape the docstring of [iter_decode] describes). *)
Fixpoint errors_first (it : gen value) : bool :=
  match it with
  | GYield chunk k =>
      if isinstance_XMLSchemaValidationError chunk then errors_first k else no_errors k
  | _ => true
  end.

(** The first chunk of a stream that is not a validation error. *)
Fixpoint first_value (it : gen value) : option value :=
  match it with
  | GYield chunk k =>
      if isinstance_XMLSchemaValidationError chunk then first_value k else Some chunk
  | _ => None
  end.

(** The stream does not start by raising a validation error itself, and
    yields no validation error after a leading decoded value. *)
Definition first_chunk_tells (it : gen value) : bool :=
  match it with
  | GStop => true
  | GYield chunk k => isinstance_XMLSchemaValidationError chunk || no_errors k
  | GRaise e => negb (is_validation_exn e)
  end.

(** The iterator runs to its end without yielding an item. *)
Definition yields_nothing {A} (it : gen A) : Prop :=
  gen_items it = [] /\ gen_end it = Ok tt.

(** A generator function seen from its caller: an exception of the call is
    an exception of the first resumption. *)
Definition call_gen {A} (r : result (gen A)) : gen A :=
  match r with
  | Ok it => it
  | Raise e => GRaise e
  end.

(** The keyword arguments [decode] and [encode] pass on. *)
Definition passed_kwargs (kwargs : gmap string value) : gmap string value :=
  <["validation" := default (VStr "strict") (kwargs !! "validation")]>
    (delete "validation" kwargs).

(** The keyword arguments of the call made by [iter_errors]. *)
Definition lax_kwargs (use_defaults : value) : gmap string value :=
  <["validation" := VStr "lax"]> {["use_defaults" := use_defaults]}.

(** ** Sample components *)

(** A component whose token is the state of the owner of the global maps
    and whose streams depend on the keyword arguments only. *)
Definition sample_component (streams : gmap string value -> gen value)
    : validator_class value := {|
  check_token := fun g => Ok g;
  iter_decode := fun _ _ kw => Ok (streams kw);
  iter_encode := fun _ _ kw => Ok (streams kw)
|}.

(** One error, then a best-effort value, in every mode. *)
Definition error_then_value (_ : gmap string value) : gen value :=
  GYield (VError 1 "missing required field") (GYield (VStr "x") GStop).

(** A component that reports an unexpected child in strict mode only. *)
Definition strict_only_error (kw : gmap string value) : gen value :=
  if bool_decide (kw !! "validation" = Some (VStr "strict"))
  then GYield (VError 1 "unexpected child") (GYield (VStr "x") GStop)
  else GYield (VStr "x") GStop.

(** A subclass that overrides everything but [iter_decode]. *)
Definition without_iter_decode {G} (tok : G -> result value)
    (enc : value -> list value -> gmap string value -> result (gen value))
    : validator_class G := {|
  check_token := tok;
  iter_decode := iter_decode (XMLSchemaValidator G);
  iter_encode := enc
|}.

(** The class with the two generators exchanged: what [encode] does on a
    class is what [decode] does on this one. *)
Definition swap_codec {G} (cls : validator_class G) : validator_class G := {|
  check_token := check_token cls;
  iter_decode := iter_encode cls;
  iter_encode := iter_decode cls
|}.

(** A subclass that overrides everything but [iter_encode]. *)
Definition without_iter_encode {G} (tok : G -> result value)
    (dec : value -> list value -> gmap string value -> result (gen value))
    : validator_class G := {|
  check_token := tok;
  iter_decode := dec;
  iter_encode := iter_encode (XMLSchemaValidator G)
|}.

(** The strings [validity] returns. *)
Definition validity_values : list string := ["valid"; "invalid"; "notKnown"].

(** The value [validity] reports for a stored [_valid], when checked. *)
Definition validity_of (v : value) : string :=
  if is_True v then "valid" else if is_False v then "invalid" else "notKnown".

(** A stream with two errors around a value, ended by an exception. *)
Definition value_between_errors (_ : gmap string value) : gen value :=
  GYield (VStr "a")
    (GYield (VError 1 "out of range")
       (GYield (VInt 3)
          (GYield (VError 2 "missing") (GRaise NotImplementedError)))).

(** * Properties *)

(** ** Values *)

Lemma SFeqb_self (f : spec_float) :
  SFeqb f f = match f with S754_nan => false | _ => true end.
Proof.
  destruct f as [s|s| |s m e]; unfold SFeqb; simpl; trivial.
  - by destruct s.
  - rewrite Z.compare_refl, Pos.compare_cont_refl. by destruct s.
Qed.

(** [v == v] holds for every value but a NaN. *)
Lemma py_eq_self (v : value) : py_eq v v = negb (is_nan v).
Proof.
  destruct v as [|b|n|f|s|i r]; simpl; trivial.
  - by destruct b.
  - apply Z.eqb_refl.
  - rewrite SFeqb_self. by destruct f.
  - apply String.eqb_refl.
  - apply Pos.eqb_refl.
Qed.

Lemma py_eq_None (t : value) : py_eq VNone t = true <-> t = VNone.
Proof. destruct t; simpl; split; intros H; congruence. Qed.

Lemma check_value_admitted (v : value) (l : list value) :
  v ∈ l -> check_value v l = Ok tt.
Proof. intros H. unfold check_value. by rewrite bool_decide_eq_true_2. Qed.

Lemma check_value_rejected (v : value) (l : list value) :
  v ∉ l -> check_value v l = Raise (XMLSchemaValueError v).
Proof. intros H. unfold check_value. by rewrite bool_decide_eq_false_2. Qed.

(** ** Attribute assignment *)

Lemma setattr_other (name : string) (v : value) (self : instance) :
  name <> "_valid" -> __setattr__ name v self = object_setattr name v self.
Proof.
  intros Hne. unfold __setattr__.
  destruct (String.eqb_spec name "_valid") as [->|_]; [done|reflexivity].
Qed.

Lemma setattr_token (v : value) (self : instance) :
  __setattr__ "_check_token" v self = (Ok tt, <["_check_token" := v]> self).
Proof. reflexivity. Qed.

(** An assignment that does not go through leaves the instance as it was. *)
Lemma object_setattr_cases (name : string) (v : value) (self : instance) :
  object_setattr name v self = (Ok tt, <[name := v]> self) \/
  object_setattr name v self = (Raise (AttributeError name), self).
Proof. unfold object_setattr. case_bool_decide; auto. Qed.

Lemma setattr_valid (v : value) (self : instance) :
  __setattr__ "_valid" v self =
    if bool_decide (v ∈ admitted_valid)
    then (Ok tt, <["_valid" := v]> self)
    else (Raise (XMLSchemaValueError v), self).
Proof.
  unfold __setattr__, check_value, admitted_valid. simpl.
  by destruct (bool_decide _).
Qed.

Lemma new_instance_eq :
  new_instance = <["_valid" := VNone]> (<["_check_token" := VNone]> ∅).
Proof. reflexivity. Qed.

Lemma new_instance_token : new_instance !! "_check_token" = Some VNone.
Proof. reflexivity. Qed.

Lemma new_instance_valid : new_instance !! "_valid" = Some VNone.
Proof. reflexivity. Qed.

(** ** The validity tracker *)
Section Tracker.
Context {G : Type} (cls : validator_class G).

Lemma check_run (g : G) (t : value) (self : instance) :
  check_token cls g = Ok t ->
  check cls g self =
    (Ok tt, <["_valid" := VBool true]> (<["_check_token" := t]> self)).
Proof.
  intros Ht. unfold check, bind, lift. rewrite Ht.
  rewrite setattr_token.
  rewrite setattr_valid. reflexivity.
Qed.

Lemma check_raises (g : G) (e : exn) (self : instance) :
  check_token cls g = Raise e -> check cls g self = (Raise e, self).
Proof. intros Ht. unfold check, bind, lift. by rewrite Ht. Qed.

Lemma checked_run (g : G) (s t : value) (self : instance) :
  self !! "_check_token" = Some s ->
  check_token cls g = Ok t ->
  checked cls g self = (Ok (py_eq s t), self).
Proof.
  intros Hs Ht. unfold checked, bind, lift, getattr, ret.
  by rewrite Hs, Ht.
Qed.

Lemma validation_attempted_run (g : G) (s t : value) (self : instance) :
  self !! "_check_token" = Some s ->
  check_token cls g = Ok t ->
  validation_attempted cls g self =
    (Ok (if py_eq s t then "full" else "none"), self).
Proof.
  intros Hs Ht. unfold validation_attempted, bind.
  rewrite (checked_run g s t) by done.
  by destruct (py_eq s t).
Qed.

Lemma validity_stale (g : G) (s t : value) (self : instance) :
  self !! "_check_token" = Some s ->
  check_token cls g = Ok t ->
  py_eq s t = false ->
  validity cls g self = (Ok "notKnown", self).
Proof.
  intros Hs Ht Hne. unfold validity, bind.
  rewrite (checked_run g s t) by done.
  by rewrite Hne.
Qed.

Lemma validity_fresh (g : G) (s t v : value) (self : instance) :
  self !! "_check_token" = Some s ->
  self !! "_valid" = Some v ->
  check_token cls g = Ok t ->
  py_eq s t = true ->
  validity cls g self =
    (Ok (if is_True v then "valid"
         else if is_False v then "invalid" else "notKnown"), self).
Proof.
  intros Hs Hv Ht Heq. unfold validity, bind.
  rewrite (checked_run g s t) by done.
  rewrite Heq. unfold getattr, ret. rewrite Hv.
  destruct (is_True v); [done|].
  rewrite Hv. by destruct (is_False v).
Qed.

(** No operation changes the instance except an assignment and [check]. *)
Lemma checked_pure (g : G) (self : instance) : snd (checked cls g self) = self.
Proof.
  unfold checked, bind, lift, getattr, ret.
  destruct (self !! "_check_token"); [|done].
  by destruct (check_token cls g).
Qed.

Lemma checked_state (g : G) (self : instance) :
  exists r, checked cls g self = (r, self).
Proof.
  pose proof (checked_pure g self) as Hp.
  destruct (checked cls g self) as [r self'] eqn:Hc. simpl in Hp.
  exists r. by rewrite Hp.
Qed.

Lemma valid_pure (g : G) (self : instance) : snd (valid cls g self) = self.
Proof.
  unfold valid, bind. destruct (checked_state g self) as [r ->].
  destruct r as [[|]|e]; unfold getattr, ret; simpl; [|done|done].
  by destruct (self !! "_valid").
Qed.

Lemma validity_pure (g : G) (self : instance) : snd (validity cls g self) = self.
Proof.
  unfold validity, bind. destruct (checked_state g self) as [r ->].
  destruct r as [[|]|e]; unfold getattr, ret; simpl; [|done|done].
  destruct (self !! "_valid") as [v|]; [|done].
  destruct (is_True v); [done|].
  destruct (self !! "_valid") as [v'|]; [|done].
  by destruct (is_False v').
Qed.

Lemma validation_attempted_pure (g : G) (self : instance) :
  snd (validation_attempted cls g self) = self.
Proof.
  unfold validation_attempted, bind. destruct (checked_state g self) as [r ->].
  by destruct r as [[|]|e].
Qed.

Lemma new_instance_ok : valid_field_ok new_instance.
Proof.
  exists VNone. split; [apply new_instance_valid|].
  unfold admitted_valid. set_solver.
Qed.

(** Each operation preserves the invariant on [_valid]. *)
Lemma run_op_ok (o : op G) (self : instance) :
  valid_field_ok self -> valid_field_ok (run_op cls o self).
Proof.
  intros Hok. destruct o as [name v|g|g|g|g|g]; simpl.
  - destruct (String.eqb_spec name "_valid") as [->|Hne].
    + rewrite setattr_valid. case_bool_decide as Hin; simpl; [|done].
      exists v. by rewrite lookup_insert_eq.
    + rewrite setattr_other by done.
      destruct (object_setattr_cases name v self) as [-> | ->]; simpl; [|done].
      destruct Hok as (w & Hw & Hin). exists w.
      by rewrite lookup_insert_ne.
  - case_bool_decide; [done|].
    destruct (check_token cls g) as [t|e] eqn:Ht.
    + rewrite (check_run g t) by done. simpl.
      exists (VBool true). rewrite lookup_insert_eq.
      split; [done|]. unfold admitted_valid. set_solver.
    + by rewrite (check_raises g e).
  - by rewrite checked_pure.
  - by rewrite valid_pure.
  - by rewrite validity_pure.
  - by rewrite validation_attempted_pure.
Qed.

Lemma run_ops_ok (ops : list (op G)) (self : instance) :
  valid_field_ok self -> valid_field_ok (run_ops cls ops self).
Proof.
  revert self. induction ops as [|o ops IH]; intros self Hok; [done|].
  simpl. apply IH. by apply run_op_ok.
Qed.

End Tracker.

(** C3 as stated fails: a [check_token] that returns a float NaN, the same
    one at every read, leaves [checked] [False] right after [check], since
    the stored token does not compare equal to itself. *)
Lemma check_marks_checked_counterexample :
  ~ (forall (cls : validator_class value) (g t : value) (self : instance),
       check_token cls g = Ok t ->
       checked cls g (snd (check cls g self))
         = (Ok true, snd (check cls g self)) /\
       (validity cls g (snd (check cls g self))
          = (Ok "valid", snd (check cls g self)) \/
        validity cls g (snd (check cls g self))
          = (Ok "invalid", snd (check cls g self)))).
Proof.
  intros H.
  destruct (H (sample_component error_then_value) (VFloat S754_nan)
              (VFloat S754_nan) new_instance eq_refl) as [Hchecked _].
  discriminate Hchecked.
Qed.

(** C3, amended.  When [check_token] returns the same value [t] during the
    pass (at the time of [check] and when the properties are read
    afterwards), and [t] compares equal to itself, [check] returns normally,
    has recorded [t] as [_check_token] and [True] as [_valid], and right
    after it [checked] is [True] and [validity] is one of "valid" and
    "invalid" (it is "valid"). *)
Theorem check_marks_checked {G : Type} (cls : validator_class G)
    (g g' : G) (t : value) (self : instance) :
  check_token cls g = Ok t ->
  check_token cls g' = Ok t ->
  py_eq t t = true ->
  let self' := snd (check cls g self) in
  fst (check cls g self) = Ok tt /\
  self' !! "_check_token" = Some t /\
  self' !! "_valid" = Some (VBool true) /\
  checked cls g' self' = (Ok true, self') /\
  (validity cls g' self' = (Ok "valid", self') \/
   validity cls g' self' = (Ok "invalid", self')).
Proof.
  intros Hg Hg' Hrefl. rewrite (check_run cls g t) by done. simpl.
  assert (Htok : (<["_valid" := VBool true]> (<["_check_token" := t]> self) : instance)
                   !! "_check_token" = Some t).
  { rewrite lookup_insert_ne by discriminate. apply lookup_insert_eq. }
  assert (Hval : (<["_valid" := VBool true]> (<["_check_token" := t]> self) : instance)
                   !! "_valid" = Some (VBool true)).
  { apply lookup_insert_eq. }
  repeat split; try done.
  - rewrite (checked_run cls g' t t) by done. by rewrite Hrefl.
  - left. by rewrite (validity_fresh cls g' t t (VBool true)).
Qed.

Lemma check_marks_checked_witness :
  checked (sample_component error_then_value) (VInt 7)
    (snd (check (sample_component error_then_value) (VInt 7) new_instance))
  = (Ok true, snd (check (sample_component error_then_value) (VInt 7) new_instance)).
Proof.
  apply (check_marks_checked (sample_component error_then_value)
           (VInt 7) (VInt 7) (VInt 7) new_instance); reflexivity.
Defined.

(** C4.  Freshness: [check] ran while the token was [t]; the token then
    changes to a [t'] that does not compare equal to [t], and the stored
    token is still the one [check] recorded ([check] was not run again).
    Then [checked] is [False], [validity] is "notKnown" and
    [validation_attempted] is "none", whatever [_valid] holds. *)
Theorem stale_token_not_checked {G : Type} (cls : validator_class G)
    (g g' : G) (t t' : value) (self self' : instance) :
  check_token cls g = Ok t ->
  check_token cls g' = Ok t' ->
  py_eq t t' = false ->
  self' !! "_check_token" = snd (check cls g self) !! "_check_token" ->
  checked cls g' self' = (Ok false, self') /\
  validity cls g' self' = (Ok "notKnown", self') /\
  validation_attempted cls g' self' = (Ok "none", self').
Proof.
  intros Hg Hg' Hne Hsame.
  rewrite (check_run cls g t) in Hsame by done. simpl in Hsame.
  rewrite lookup_insert_ne in Hsame by discriminate.
  rewrite lookup_insert_eq in Hsame.
  split; [|split].
  - rewrite (checked_run cls g' t t') by done. by rewrite Hne.
  - by apply (validity_stale cls g' t t').
  - rewrite (validation_attempted_run cls g' t t') by done. by rewrite Hne.
Qed.

Lemma stale_token_not_checked_witness :
  validity (sample_component error_then_value) (VInt 2)
    (<["_valid" := VBool false]>
       (snd (check (sample_component error_then_value) (VInt 1) new_instance)))
  = (Ok "notKnown",
     <["_valid" := VBool false]>
       (snd (check (sample_component error_then_value) (VInt 1) new_instance))).
Proof.
  apply (stale_token_not_checked (sample_component error_then_value)
           (VInt 1) (VInt 2) (VInt 1) (VInt 2) new_instance
           (<["_valid" := VBool false]>
              (snd (check (sample_component error_then_value) (VInt 1) new_instance))));
    reflexivity.
Defined.

(** C5 as stated fails: a new node whose [check_token] returns [None], the
    value [__init__] stores as [_check_token], reports
    [validation_attempted] "full". *)
Lemma never_checked_counterexample :
  ~ (forall (cls : validator_class value) (g t : value),
       check_token cls g = Ok t ->
       validity cls g new_instance = (Ok "notKnown", new_instance) /\
       validation_attempted cls g new_instance = (Ok "none", new_instance)).
Proof.
  intros H.
  destruct (H (sample_component error_then_value) VNone VNone eq_refl) as [_ Hva].
  rewrite (validation_attempted_run _ VNone VNone VNone) in Hva
    by (apply new_instance_token || reflexivity).
  discriminate Hva.
Qed.

(** C5, amended.  On a new node, for every value [t] that [check_token]
    returns, [validity] is "notKnown"; and [validation_attempted] is "none"
    when [t] is not [None]. *)
Theorem never_checked_not_known {G : Type} (cls : validator_class G)
    (g : G) (t : value) :
  check_token cls g = Ok t ->
  validity cls g new_instance = (Ok "notKnown", new_instance) /\
  (t <> VNone ->
   validation_attempted cls g new_instance = (Ok "none", new_instance)).
Proof.
  intros Hg. split.
  - destruct (py_eq VNone t) eqn:Heq.
    + rewrite (validity_fresh cls g VNone t VNone); try done.
    + by apply (validity_stale cls g VNone t).
  - intros Hne.
    rewrite (validation_attempted_run cls g VNone t); try done.
    destruct (py_eq VNone t) eqn:Heq; [|done].
    by apply py_eq_None in Heq.
Qed.

Lemma never_checked_not_known_witness :
  validity (sample_component error_then_value) (VInt 0) new_instance
    = (Ok "notKnown", new_instance) /\
  validation_attempted (sample_component error_then_value) (VInt 0) new_instance
    = (Ok "none", new_instance).
Proof.
  destruct (never_checked_not_known (sample_component error_then_value)
              (VInt 0) (VInt 0) eq_refl) as [Hv Hva].
  split; [exact Hv | apply Hva; discriminate].
Defined.

(** C8.  After [__init__] and any sequence of operations, [_valid] holds
    [None], [True] or [False]; and on such an instance the assignment of a
    value to [_valid] goes through exactly when the value is one of the
    three, and otherwise raises and leaves the instance as it was. *)
Theorem valid_field_invariant {G : Type} (cls : validator_class G)
    (ops : list (op G)) :
  let self := run_ops cls ops new_instance in
  valid_field_ok self /\
  forall v : value,
    __setattr__ "_valid" v self =
      if bool_decide (v ∈ admitted_valid)
      then (Ok tt, <["_valid" := v]> self)
      else (Raise (XMLSchemaValueError v), self).
Proof.
  split.
  - apply run_ops_ok, new_instance_ok.
  - intros v. apply setattr_valid.
Qed.

(** ** The decode/encode protocol *)

Section Protocol.
Context {G : Type} (cls : validator_class G).

Lemma iter_errors_loop_items (it : gen value) :
  gen_items (iter_errors_loop it) =
    List.filter isinstance_XMLSchemaValidationError (gen_items it).
Proof.
  induction it as [|chunk k IH|e]; simpl; trivial.
  destruct (isinstance_XMLSchemaValidationError chunk); simpl; congruence.
Qed.

Lemma iter_errors_loop_end (it : gen value) :
  gen_end (iter_errors_loop it) = gen_end it.
Proof.
  induction it as [|chunk k IH|e]; simpl; trivial.
  by destruct (isinstance_XMLSchemaValidationError chunk).
Qed.

(** Whatever the error iterator yields is a validation error. *)
Lemma iter_errors_loop_yields (it : gen value) (chunk : value) (k : gen value) :
  iter_errors_loop it = GYield chunk k ->
  isinstance_XMLSchemaValidationError chunk = true.
Proof.
  induction it as [|c k' IH|e]; simpl; try discriminate.
  destruct (isinstance_XMLSchemaValidationError c) eqn:Hc; [|exact IH].
  intros [= <- _]. exact Hc.
Qed.

Lemma iter_errors_unfold (data path use_defaults : value) :
  iter_errors cls data path use_defaults =
    iter_errors_loop (call_gen (iter_decode cls data [path] (lax_kwargs use_defaults))).
Proof.
  unfold iter_errors, lax_kwargs, call_gen.
  by destruct (iter_decode cls data [path] _).
Qed.

Lemma iter_errors_yields (data path use_defaults chunk : value) (k : gen value) :
  iter_errors cls data path use_defaults = GYield chunk k ->
  isinstance_XMLSchemaValidationError chunk = true.
Proof. rewrite iter_errors_unfold. apply iter_errors_loop_yields. Qed.

Lemma decode_unfold (data : value) (args : list value) (kwargs : gmap string value) :
  decode cls data args kwargs =
    for_in (call_gen (iter_decode cls data args (passed_kwargs kwargs)))
      (first_chunk (default (VStr "strict") (kwargs !! "validation")))
      (Ok VNone).
Proof.
  unfold decode, pop_validation, passed_kwargs, call_gen.
  by destruct (iter_decode cls data args _).
Qed.

Lemma encode_unfold (data : value) (args : list value) (kwargs : gmap string value) :
  encode cls data args kwargs =
    for_in (call_gen (iter_encode cls data args (passed_kwargs kwargs)))
      (first_chunk (default (VStr "strict") (kwargs !! "validation")))
      (Ok VNone).
Proof.
  unfold encode, pop_validation, passed_kwargs, call_gen.
  by destruct (iter_encode cls data args _).
Qed.

(** The loop of [decode] and [encode] never reaches a second chunk. *)
Lemma for_in_first_chunk (validation : value) (it : gen value) :
  for_in it (first_chunk validation) (Ok VNone) =
    match gen_next it with
    | (Yielded chunk, _) =>
        if isinstance_XMLSchemaValidationError chunk
           && py_eq validation (VStr "strict")
        then Raise (Raised chunk) else Ok chunk
    | (StopIteration, _) => Ok VNone
    | (Raising e, _) => Raise e
    end.
Proof.
  destruct it as [|chunk k|e]; simpl; trivial.
  unfold first_chunk.
  by destruct (isinstance_XMLSchemaValidationError chunk && py_eq validation (VStr "strict")).
Qed.

Lemma validate_unfold (data use_defaults : value) :
  validate cls data use_defaults =
    match gen_next (iter_errors cls data VNone use_defaults) with
    | (Yielded error, _) => Raise (Raised error)
    | (StopIteration, _) => Ok VNone
    | (Raising e, _) => Raise e
    end.
Proof.
  unfold validate. by destruct (iter_errors cls data VNone use_defaults).
Qed.

(** In a stream whose errors come first, there is an error exactly when
    the first chunk is one. *)
Lemma no_errors_filter (it : gen value) :
  no_errors it = true ->
  List.filter isinstance_XMLSchemaValidationError (gen_items it) = [].
Proof.
  induction it as [|chunk k IH|e]; simpl; trivial.
  destruct (isinstance_XMLSchemaValidationError chunk); simpl; [discriminate|exact IH].
Qed.

End Protocol.

Lemma passed_kwargs_insert (kwargs : gmap string value) :
  passed_kwargs kwargs =
    <["validation" := default (VStr "strict") (kwargs !! "validation")]> kwargs.
Proof. unfold passed_kwargs. apply insert_delete_eq. Qed.

Lemma decode_with_mode {G : Type} (cls : validator_class G)
    (d : value) (args : list value) (kwargs : gmap string value) :
  decode cls d args kwargs =
    decode cls d args
      (<["validation" := default (VStr "strict") (kwargs !! "validation")]> kwargs).
Proof.
  rewrite !decode_unfold, !passed_kwargs_insert.
  rewrite lookup_insert_eq. simpl. by rewrite insert_insert_eq.
Qed.

Lemma no_errors_filter_iff (it : gen value) :
  no_errors it = true <->
  List.filter isinstance_XMLSchemaValidationError (gen_items it) = [].
Proof.
  induction it as [|chunk k IH|e]; simpl; try done.
  destruct (isinstance_XMLSchemaValidationError chunk); simpl; [|exact IH].
  split; intros H; discriminate H.
Qed.

(** Binding looks at the names of the keywords only. *)
Lemma bind_arguments_dom (parameters : list string) (args : list value)
    (kwargs kwargs' : gmap string value) :
  dom kwargs = dom kwargs' ->
  bind_arguments parameters args kwargs = bind_arguments parameters args kwargs'.
Proof. intros Hdom. unfold bind_arguments. by rewrite Hdom. Qed.

Lemma passed_kwargs_dom (kwargs : gmap string value) (mode : value) :
  dom (passed_kwargs (<["validation" := mode]> kwargs)) = dom (passed_kwargs kwargs).
Proof.
  rewrite !passed_kwargs_insert, lookup_insert_eq. simpl.
  by rewrite insert_insert_eq, !dom_insert_L.
Qed.

(** C1.  The claim fails on the code: with a mode other than "strict",
    [decode] and [encode] return the first chunk of the stream even when it
    is a validation error; the first chunk that is not an error, "x" here,
    is never reached. *)
Theorem decode_lax_returns_first_error :
  let cls := sample_component error_then_value in
  let data := VStr "<a/>" in
  let kwargs : gmap string value := {["validation" := VStr "lax"]} in
  iter_decode cls data [] (passed_kwargs kwargs) = Ok (error_then_value ∅) /\
  first_value (error_then_value ∅) = Some (VStr "x") /\
  decode cls data [] kwargs = Ok (VError 1 "missing required field") /\
  encode cls data [] kwargs = Ok (VError 1 "missing required field").
Proof. repeat split. Qed.

(** The part of C1 that holds: [decode] raises a chunk of the stream only
    when the mode is "strict"; in any other mode it returns the first chunk,
    [None] for an empty stream, or lets through what [iter_decode] raises. *)
Lemma decode_not_strict {G : Type} (cls : validator_class G)
    (data : value) (args : list value) (kwargs : gmap string value) :
  py_eq (default (VStr "strict") (kwargs !! "validation")) (VStr "strict") = false ->
  decode cls data args kwargs =
    match gen_next (call_gen (iter_decode cls data args (passed_kwargs kwargs))) with
    | (Yielded chunk, _) => Ok chunk
    | (StopIteration, _) => Ok VNone
    | (Raising e, _) => Raise e
    end.
Proof.
  intros Hmode. rewrite decode_unfold, for_in_first_chunk, Hmode.
  destruct (gen_next _) as [[chunk| |e] k]; trivial.
  by rewrite andb_false_r.
Qed.

(** A stream of the shape the docstring of [iter_decode] describes, errors
    before the value, that does not start by raising a validation error. *)
Lemma errors_first_tells (it : gen value) :
  errors_first it = true ->
  (forall e, it = GRaise e -> is_validation_exn e = false) ->
  first_chunk_tells it = true.
Proof.
  destruct it as [|chunk k|e]; simpl; intros Hshape Hraise; [done| |].
  - destruct (isinstance_XMLSchemaValidationError chunk); [done|exact Hshape].
  - by rewrite (Hraise e).
Qed.

(** C2 as stated fails: a component that reports an error in strict mode
    only makes [decode] raise it, while [iter_errors], which decodes in lax
    mode, yields nothing. *)
Lemma decode_strict_iff_errors_counterexample :
  ~ (forall (cls : validator_class value) (d : value),
       (exists e, decode cls d [] {["validation" := VStr "strict"]} = Raise e /\
                  is_validation_exn e = true)
       <-> gen_items (iter_errors cls d VNone (VBool true)) <> []).
Proof.
  intros H.
  destruct (H (sample_component strict_only_error) (VStr "<a><b/></a>")) as [Hraise _].
  apply Hraise; [|reflexivity].
  exists (Raised (VError 1 "unexpected child")). split; reflexivity.
Qed.

(** C2, amended.  When [iter_decode] gives for [d] the same stream in strict
    mode as in the lax call made by [iter_errors], [decode] in strict mode
    raises a validation error exactly when [iter_errors] yields an item if,
    and only if, that stream does not start by raising a validation error
    itself and yields no validation error after a leading decoded value.
    And in skip mode [decode] never raises a chunk of the stream: an
    exception out of it is one that [iter_decode] raised, at the call or at
    the first resumption. *)
Theorem decode_strict_raises_iff_errors {G : Type} (cls : validator_class G)
    (d : value) :
  (forall it : gen value,
     iter_decode cls d [] (passed_kwargs {["validation" := VStr "strict"]}) = Ok it ->
     iter_decode cls d [VNone] (lax_kwargs (VBool true)) = Ok it ->
     (((exists e, decode cls d [] {["validation" := VStr "strict"]} = Raise e /\
                  is_validation_exn e = true)
       <-> gen_items (iter_errors cls d VNone (VBool true)) <> [])
      <-> first_chunk_tells it = true)) /\
  (forall (args : list value) (kwargs : gmap string value) (e : exn),
     kwargs !! "validation" = Some (VStr "skip") ->
     decode cls d args kwargs = Raise e ->
     fst (gen_next (call_gen (iter_decode cls d args (passed_kwargs kwargs))))
       = Raising e).
Proof.
  split.
  - intros it Hstrict Hlax.
    rewrite decode_unfold, Hstrict, for_in_first_chunk.
    rewrite iter_errors_unfold, Hlax, iter_errors_loop_items.
    rewrite lookup_singleton_eq. simpl.
    destruct it as [|chunk k|e]; simpl.
    + split; [done|]. intros _.
      split; [intros (e & He & _); discriminate | done].
    + destruct (isinstance_XMLSchemaValidationError chunk) eqn:Hc; simpl.
      * split; [done|]. intros _.
        split; [done|]. intros _. exists (Raised chunk). by split.
      * rewrite no_errors_filter_iff. split.
        -- intros [_ Hback].
           destruct (List.filter _ (gen_items k)) as [|c l]; [done|].
           destruct Hback as (e & He & _); [done | discriminate He].
        -- intros ->. split; [intros (e & He & _); discriminate | done].
    + destruct (is_validation_exn e) eqn:He; simpl.
      * split; [|done]. intros [Hfwd _]. exfalso. apply Hfwd; [|done].
        exists e. by split.
      * split; [done|]. intros _.
        split; [intros (e' & [= <-] & He'); congruence | done].
  - intros args kwargs e Hskip Hraise.
    rewrite decode_not_strict in Hraise by by rewrite Hskip.
    destruct (gen_next _) as [[chunk| |e'] k]; simpl; congruence.
Qed.

Lemma decode_strict_raises_iff_errors_witness :
  ((exists e, decode (sample_component error_then_value) (VStr "<a/>") []
                {["validation" := VStr "strict"]} = Raise e /\
              is_validation_exn e = true)
   <-> gen_items (iter_errors (sample_component error_then_value) (VStr "<a/>")
                    VNone (VBool true)) <> []) /\
  fst (gen_next (call_gen
         (iter_decode (XMLSchemaValidator unit) (VStr "<a/>") []
            (passed_kwargs {["validation" := VStr "skip"]}))))
    = Raising NotImplementedError.
Proof.
  split.
  - destruct (decode_strict_raises_iff_errors (sample_component error_then_value)
                (VStr "<a/>")) as [Hstrict _].
    apply (Hstrict (error_then_value ∅)); reflexivity.
  - destruct (decode_strict_raises_iff_errors (XMLSchemaValidator unit)
                (VStr "<a/>")) as [_ Hskip].
    apply (Hskip [] {["validation" := VStr "skip"]} NotImplementedError);
      reflexivity.
Defined.

(** C6.  [is_valid] returns [True] exactly when the error iterator runs to
    its end without yielding, [False] exactly when it yields an item, and
    raises what the iterator raises before its first item.  It resumes the
    iterator once: the iterator is left as one [next] leaves it, with every
    item after the first still to be yielded. *)
Theorem is_valid_first_error {G : Type} (cls : validator_class G)
    (d use_defaults : value) :
  let errors := iter_errors cls d VNone use_defaults in
  (is_valid cls d use_defaults = Ok true <-> yields_nothing errors) /\
  (is_valid cls d use_defaults = Ok false <-> gen_items errors <> []) /\
  (forall e, is_valid cls d use_defaults = Raise e <->
             gen_items errors = [] /\ gen_end errors = Raise e) /\
  snd (is_valid_pull cls d use_defaults) = snd (gen_next errors) /\
  gen_items errors =
    (take 1 (gen_items errors)
       ++ gen_items (snd (is_valid_pull cls d use_defaults)))%list.
Proof.
  intros errors. unfold is_valid, is_valid_pull, py_next, yields_nothing.
  fold errors.
  destruct errors as [|chunk k|e] eqn:Herr; simpl.
  - repeat split; try done; intros [? ?]; congruence.
  - pose proof (iter_errors_yields cls d VNone use_defaults chunk k Herr) as Hc.
    destruct chunk; try discriminate Hc. simpl.
    repeat split; try done; intros [? ?]; congruence.
  - repeat split; try done; try congruence; intros [? ?]; congruence.
Qed.

(** C7.  [iter_errors] calls [iter_decode] with [validation='lax'] (it has
    no mode of its own to pass) and yields the chunks of that stream that
    are validation errors, in order, dropping the others; it ends as the
    stream ends.  [validate] raises the first of these errors; with none, it
    returns [None], or lets through what the stream raises. *)
Theorem iter_errors_filters_lax_stream {G : Type} (cls : validator_class G)
    (d path use_defaults : value) :
  let stream := call_gen (iter_decode cls d [path] (lax_kwargs use_defaults)) in
  lax_kwargs use_defaults !! "validation" = Some (VStr "lax") /\
  iter_errors cls d path use_defaults = iter_errors_loop stream /\
  gen_items (iter_errors cls d path use_defaults) =
    List.filter isinstance_XMLSchemaValidationError (gen_items stream) /\
  gen_end (iter_errors cls d path use_defaults) = gen_end stream /\
  validate cls d use_defaults =
    match gen_items (iter_errors cls d VNone use_defaults) with
    | error :: _ => Raise (Raised error)
    | [] =>
        match gen_end (iter_errors cls d VNone use_defaults) with
        | Ok _ => Ok VNone
        | Raise e => Raise e
        end
    end.
Proof.
  intros stream. split; [reflexivity|].
  split; [apply iter_errors_unfold|].
  split; [rewrite iter_errors_unfold; apply iter_errors_loop_items|].
  split; [rewrite iter_errors_unfold; apply iter_errors_loop_end|].
  rewrite validate_unfold.
  by destruct (iter_errors cls d VNone use_defaults).
Qed.

(** A call that the signature of the inherited [iter_decode] does not
    accept fails in the binding, before the body: a mode passed by position
    meets the keyword [validation] that [decode] always passes, and an
    unknown keyword is refused. *)
Example decode_base_positional_mode :
  decode (XMLSchemaValidator unit) (VStr "<a/>") [VNone; VStr "lax"] ∅
    = Raise TypeError.
Proof. reflexivity. Qed.

Example decode_base_unknown_keyword :
  decode (XMLSchemaValidator unit) (VStr "<a/>") [] {["bogus" := VInt 1]}
    = Raise TypeError.
Proof. reflexivity. Qed.

(** C9.  A class that inherits [iter_decode] from the base class raises
    [NotImplementedError] from [decode] on every call whose arguments the
    signature of [iter_decode] accepts, whatever the mode passed as
    [validation]; on any call at all [decode] raises, and never a validation
    error.  [validate] and [is_valid] raise [NotImplementedError], which is
    not a validation error. *)
Theorem unimplemented_iter_decode_raises {G : Type}
    (tok : G -> result value)
    (enc : value -> list value -> gmap string value -> result (gen value))
    (d : value) (args : list value) (kwargs : gmap string value)
    (use_defaults : value) :
  let cls := without_iter_decode tok enc in
  (bind_arguments iter_decode_parameters args (passed_kwargs kwargs) = Ok tt ->
   decode cls d args kwargs = Raise NotImplementedError /\
   forall mode : value,
     decode cls d args (<["validation" := mode]> kwargs) = Raise NotImplementedError) /\
  (exists e, decode cls d args kwargs = Raise e /\ is_validation_exn e = false) /\
  validate cls d use_defaults = Raise NotImplementedError /\
  is_valid cls d use_defaults = Raise NotImplementedError /\
  is_validation_exn NotImplementedError = false.
Proof.
  intros cls.
  assert (Hdecode : forall kw,
            bind_arguments iter_decode_parameters args (passed_kwargs kw) = Ok tt ->
            decode cls d args kw = Raise NotImplementedError).
  { intros kw Hbind. rewrite decode_unfold. simpl. by rewrite Hbind. }
  split; [|split; [|by repeat split]].
  - intros Hbind. split; [by apply Hdecode|].
    intros mode. apply Hdecode.
    by rewrite (bind_arguments_dom _ _ _ (passed_kwargs kwargs))
      by apply passed_kwargs_dom.
  - rewrite decode_unfold. simpl. unfold bind_arguments.
    case_bool_decide; simpl; eexists; by split.
Qed.

Lemma unimplemented_iter_decode_raises_witness :
  decode (without_iter_decode (fun _ : unit => Ok (VInt 1)) (fun _ _ _ => Ok GStop))
    (VStr "<a/>") [VNone] {["use_defaults" := VBool false]}
    = Raise NotImplementedError /\
  decode (without_iter_decode (fun _ : unit => Ok (VInt 1)) (fun _ _ _ => Ok GStop))
    (VStr "<a/>") [VNone]
    (<["validation" := VStr "lax"]> {["use_defaults" := VBool false]})
    = Raise NotImplementedError.
Proof.
  destruct (unimplemented_iter_decode_raises (fun _ : unit => Ok (VInt 1))
              (fun _ _ _ => Ok GStop) (VStr "<a/>") [VNone]
              {["use_defaults" := VBool false]} (VBool true)) as [Hbound _].
  destruct (Hbound eq_refl) as [Hdefault Hmode].
  split; [exact Hdefault | exact (Hmode (VStr "lax"))].
Defined.

(** C10.  When the stream of [iter_decode] (of [iter_encode]) is empty,
    [decode] ([encode]) returns [None], whatever the keyword arguments and
    so whatever the mode. *)
Theorem empty_stream_returns_None {G : Type} (cls : validator_class G)
    (d : value) (args : list value) (kwargs : gmap string value) :
  (iter_decode cls d args (passed_kwargs kwargs) = Ok GStop ->
   decode cls d args kwargs = Ok VNone) /\
  (iter_encode cls d args (passed_kwargs kwargs) = Ok GStop ->
   encode cls d args kwargs = Ok VNone).
Proof.
  split; intros Hempty.
  - by rewrite decode_unfold, Hempty.
  - by rewrite encode_unfold, Hempty.
Qed.

Lemma empty_stream_returns_None_witness :
  decode (sample_component (fun _ => GStop)) (VStr "") []
    {["validation" := VStr "strict"]} = Ok VNone /\
  encode (sample_component (fun _ => GStop)) (VStr "") []
    {["validation" := VStr "strict"]} = Ok VNone.
Proof.
  destruct (empty_stream_returns_None (sample_component (fun _ => GStop))
              (VStr "") [] {["validation" := VStr "strict"]}) as [Hd He].
  split; [apply Hd | apply He]; reflexivity.
Defined.

(** * Further properties of the class *)

(** ** Tracker: how the operations compose *)

Lemma valid_run {G : Type} (cls : validator_class G) (g : G)
    (s t v : value) (self : instance) :
  self !! "_check_token" = Some s ->
  self !! "_valid" = Some v ->
  check_token cls g = Ok t ->
  valid cls g self = (Ok (if py_eq s t then v else VNone), self).
Proof.
  intros Hs Hv Ht. unfold valid, bind.
  rewrite (checked_run cls g s t) by done.
  destruct (py_eq s t); [|done].
  unfold getattr. by rewrite Hv.
Qed.

Lemma check_twice_map (t : value) (self : instance) :
  <["_valid" := VBool true]>
    (<["_check_token" := t]>
       (<["_valid" := VBool true]> (<["_check_token" := t]> self)))
  = <["_valid" := VBool true]> (<["_check_token" := t]> self).
Proof.
  apply map_eq. intros k. rewrite !lookup_insert.
  by repeat case_decide.
Qed.

(** X1.  [check] is idempotent within a generation: run again while the
    token is the same, it returns normally and leaves the instance exactly
    as the first run left it. *)
Theorem check_idempotent {G : Type} (cls : validator_class G)
    (g g' : G) (t : value) (self : instance) :
  check_token cls g = Ok t ->
  check_token cls g' = Ok t ->
  check cls g' (snd (check cls g self)) = (Ok tt, snd (check cls g self)).
Proof.
  intros Hg Hg'. rewrite (check_run cls g t) by done. simpl.
  rewrite (check_run cls g' t) by done.
  by rewrite check_twice_map.
Qed.

Lemma check_idempotent_witness :
  check (sample_component error_then_value) (VInt 4)
    (snd (check (sample_component error_then_value) (VInt 4) new_instance))
  = (Ok tt, snd (check (sample_component error_then_value) (VInt 4) new_instance)).
Proof.
  apply (check_idempotent (sample_component error_then_value)
           (VInt 4) (VInt 4) (VInt 4) new_instance); reflexivity.
Defined.

(** X2.  What the caller stores in [_valid] after [check] is what the node
    reports while the token is the same, for a token that compares equal to
    itself: [True] or [False] give "valid" or "invalid", and [None] gives
    "notKnown" although [validation_attempted] is "full". *)
Theorem mark_after_check_is_reported {G : Type} (cls : validator_class G)
    (g g' : G) (t v : value) (self : instance) :
  check_token cls g = Ok t ->
  check_token cls g' = Ok t ->
  py_eq t t = true ->
  v ∈ admitted_valid ->
  let marked := snd (__setattr__ "_valid" v (snd (check cls g self))) in
  fst (__setattr__ "_valid" v (snd (check cls g self))) = Ok tt /\
  checked cls g' marked = (Ok true, marked) /\
  valid cls g' marked = (Ok v, marked) /\
  validity cls g' marked = (Ok (validity_of v), marked) /\
  validation_attempted cls g' marked = (Ok "full", marked).
Proof.
  intros Hg Hg' Hrefl Hv. rewrite (check_run cls g t) by done. simpl.
  rewrite setattr_valid, bool_decide_eq_true_2 by done. simpl.
  set (marked := <["_valid" := v]> _).
  assert (Htok : marked !! "_check_token" = Some t).
  { unfold marked. rewrite !(lookup_insert_ne _ "_valid") by discriminate.
    apply lookup_insert_eq. }
  assert (Hval : marked !! "_valid" = Some v) by apply lookup_insert_eq.
  split; [done|]. split; [|split; [|split]].
  - rewrite (checked_run cls g' t t) by done. by rewrite Hrefl.
  - rewrite (valid_run cls g' t t v) by done. by rewrite Hrefl.
  - by rewrite (validity_fresh cls g' t t v).
  - rewrite (validation_attempted_run cls g' t t) by done. by rewrite Hrefl.
Qed.

Lemma mark_after_check_is_reported_witness :
  validity (sample_component error_then_value) (VInt 4)
    (snd (__setattr__ "_valid" (VBool false)
            (snd (check (sample_component error_then_value) (VInt 4) new_instance))))
  = (Ok "invalid",
     snd (__setattr__ "_valid" (VBool false)
            (snd (check (sample_component error_then_value) (VInt 4) new_instance)))).
Proof.
  apply (mark_after_check_is_reported (sample_component error_then_value)
           (VInt 4) (VInt 4) (VInt 4) (VBool false) new_instance);
    [reflexivity | reflexivity | reflexivity
    | apply list_elem_of_In; simpl; auto].
Defined.

(** X3.  An exception of [check_token] goes through every operation of the
    tracker: [check] assigns nothing, and the four properties raise the
    same exception. *)
Theorem check_token_exception_propagates {G : Type} (cls : validator_class G)
    (g : G) (e : exn) (stored : value) (self : instance) :
  check_token cls g = Raise e ->
  self !! "_check_token" = Some stored ->
  check cls g self = (Raise e, self) /\
  checked cls g self = (Raise e, self) /\
  valid cls g self = (Raise e, self) /\
  validity cls g self = (Raise e, self) /\
  validation_attempted cls g self = (Raise e, self).
Proof.
  intros Hg Hs.
  assert (Hc : checked cls g self = (Raise e, self)).
  { unfold checked, bind, lift, getattr. by rewrite Hs, Hg. }
  split; [by apply check_raises|]. split; [done|].
  unfold valid, validity, validation_attempted, bind. by rewrite Hc.
Qed.

Lemma check_token_exception_propagates_witness :
  check (XMLSchemaValidator unit) tt new_instance
    = (Raise NotImplementedError, new_instance) /\
  validity (XMLSchemaValidator unit) tt new_instance
    = (Raise NotImplementedError, new_instance).
Proof.
  destruct (check_token_exception_propagates (XMLSchemaValidator unit) tt
              NotImplementedError VNone new_instance eq_refl eq_refl)
    as (Hcheck & _ & _ & Hvalidity & _).
  split; [exact Hcheck | exact Hvalidity].
Defined.

(** X4.  On an object that has no [_check_token] attribute ([__init__] was
    not run), the four properties raise [AttributeError] for it, whatever
    the class: the attribute is read before [check_token] is. *)
Theorem tracker_needs_init {G : Type} (cls : validator_class G)
    (g : G) (self : instance) :
  self !! "_check_token" = None ->
  checked cls g self = (Raise (AttributeError "_check_token"), self) /\
  valid cls g self = (Raise (AttributeError "_check_token"), self) /\
  validity cls g self = (Raise (AttributeError "_check_token"), self) /\
  validation_attempted cls g self = (Raise (AttributeError "_check_token"), self).
Proof.
  intros Hs.
  assert (Hc : checked cls g self = (Raise (AttributeError "_check_token"), self)).
  { unfold checked, bind, getattr. by rewrite Hs. }
  split; [done|].
  unfold valid, validity, validation_attempted, bind. by rewrite Hc.
Qed.

Lemma tracker_needs_init_witness :
  checked (sample_component error_then_value) (VInt 1) ∅
    = (Raise (AttributeError "_check_token"), ∅).
Proof.
  apply (tracker_needs_init (sample_component error_then_value) (VInt 1) ∅).
  reflexivity.
Defined.

(** No operation removes [_check_token]. *)
Lemma run_op_keeps_token {G : Type} (cls : validator_class G)
    (o : op G) (self : instance) :
  is_Some (self !! "_check_token") ->
  is_Some (run_op cls o self !! "_check_token").
Proof.
  intros Hs. destruct o as [name v|g|g|g|g|g]; simpl.
  - destruct (String.eqb_spec name "_valid") as [->|Hne].
    + rewrite setattr_valid. case_bool_decide; simpl; [|done].
      by rewrite lookup_insert_ne by discriminate.
    + rewrite setattr_other by done.
      destruct (object_setattr_cases name v self) as [-> | ->]; simpl; [|done].
      rewrite lookup_insert. by case_decide.
  - case_bool_decide; [done|].
    destruct (check_token cls g) as [t|e] eqn:Ht.
    + rewrite (check_run cls g t) by done. simpl.
      rewrite lookup_insert_ne by discriminate.
      by rewrite lookup_insert_eq.
    + by rewrite (check_raises cls g e).
  - by rewrite checked_pure.
  - by rewrite valid_pure.
  - by rewrite validity_pure.
  - by rewrite validation_attempted_pure.
Qed.

Lemma run_ops_keeps_token {G : Type} (cls : validator_class G)
    (ops : list (op G)) (self : instance) :
  is_Some (self !! "_check_token") ->
  is_Some (run_ops cls ops self !! "_check_token").
Proof.
  revert self. induction ops as [|o ops IH]; intros self Hs; [done|].
  simpl. apply IH. by apply run_op_keeps_token.
Qed.

(** What an initialised node holds after any sequence of operations. *)
Lemma run_ops_attrs {G : Type} (cls : validator_class G) (ops : list (op G)) :
  exists s v,
    run_ops cls ops new_instance !! "_check_token" = Some s /\
    run_ops cls ops new_instance !! "_valid" = Some v /\
    v ∈ admitted_valid.
Proof.
  destruct (run_ops_keeps_token cls ops new_instance) as [s Hs].
  { rewrite new_instance_token. by eexists. }
  destruct (run_ops_ok cls ops new_instance new_instance_ok) as (v & Hv & Hin).
  by exists s, v.
Qed.

(** X5.  On a node that went through [__init__] and any sequence of
    operations, when [check_token] returns, the properties all return:
    [validation_attempted] is "full" or "none" as [checked] is [True] or
    [False], [validity] is one of its three strings, and it is "notKnown"
    when [checked] is [False].  None of them changes the instance. *)
Theorem tracker_reads_after_any_ops {G : Type} (cls : validator_class G)
    (ops : list (op G)) (g : G) (t : value) :
  check_token cls g = Ok t ->
  let self := run_ops cls ops new_instance in
  exists (b : bool) (s : string),
    checked cls g self = (Ok b, self) /\
    validation_attempted cls g self = (Ok (if b then "full" else "none"), self) /\
    validity cls g self = (Ok s, self) /\
    s ∈ validity_values /\
    (b = false -> s = "notKnown").
Proof.
  intros Hg self.
  destruct (run_ops_attrs cls ops) as (s & v & Hs & Hv & Hin). fold self in Hs, Hv.
  exists (py_eq s t).
  destruct (py_eq s t) eqn:Heq.
  - exists (validity_of v).
    rewrite (checked_run cls g s t), (validation_attempted_run cls g s t) by done.
    rewrite (validity_fresh cls g s t v) by done. rewrite Heq.
    repeat split; try done.
    unfold validity_of, validity_values.
    destruct (is_True v); [|destruct (is_False v)];
      apply list_elem_of_In; simpl; auto.
  - exists "notKnown".
    rewrite (checked_run cls g s t), (validation_attempted_run cls g s t) by done.
    rewrite (validity_stale cls g s t) by done. rewrite Heq.
    repeat split; try done.
    unfold validity_values. apply list_elem_of_In. simpl. auto.
Qed.

Lemma tracker_reads_after_any_ops_witness :
  exists (b : bool) (s : string),
    checked (sample_component error_then_value) (VInt 2)
      (run_ops (sample_component error_then_value)
         [Check (VInt 1); Assign "_valid" (VBool false)] new_instance)
    = (Ok b, run_ops (sample_component error_then_value)
               [Check (VInt 1); Assign "_valid" (VBool false)] new_instance) /\
    s ∈ validity_values.
Proof.
  destruct (tracker_reads_after_any_ops (sample_component error_then_value)
              [Check (VInt 1); Assign "_valid" (VBool false)] (VInt 2) (VInt 2) eq_refl)
    as (b & s & Hc & _ & _ & Hs & _).
  exists b, s. split; [exact Hc | exact Hs].
Defined.

(** X6.  On a node that went through [__init__] and any sequence of
    operations, [validity] is the string for what [valid] returns: "valid"
    exactly when [valid] is [True], "invalid" exactly when it is [False],
    and "notKnown" exactly when it is [None]. *)
Theorem validity_agrees_with_valid {G : Type} (cls : validator_class G)
    (ops : list (op G)) (g : G) (t : value) :
  check_token cls g = Ok t ->
  let self := run_ops cls ops new_instance in
  (fst (validity cls g self) = Ok "valid" <->
   fst (valid cls g self) = Ok (VBool true)) /\
  (fst (validity cls g self) = Ok "invalid" <->
   fst (valid cls g self) = Ok (VBool false)) /\
  (fst (validity cls g self) = Ok "notKnown" <->
   fst (valid cls g self) = Ok VNone).
Proof.
  intros Hg self.
  destruct (run_ops_attrs cls ops) as (s & v & Hs & Hv & Hin). fold self in Hs, Hv.
  rewrite (valid_run cls g s t v) by done.
  destruct (py_eq s t) eqn:Heq.
  - rewrite (validity_fresh cls g s t v) by done. simpl.
    apply list_elem_of_In in Hin. simpl in Hin.
    destruct Hin as [<-|[<-|[<-|[]]]]; simpl;
      repeat split; intros H; congruence.
  - rewrite (validity_stale cls g s t) by done. simpl.
    repeat split; intros H; congruence.
Qed.

Lemma validity_agrees_with_valid_witness :
  fst (validity (sample_component error_then_value) (VInt 1)
         (run_ops (sample_component error_then_value) [Check (VInt 1)] new_instance))
    = Ok "valid" <->
  fst (valid (sample_component error_then_value) (VInt 1)
         (run_ops (sample_component error_then_value) [Check (VInt 1)] new_instance))
    = Ok (VBool true).
Proof.
  destruct (validity_agrees_with_valid (sample_component error_then_value)
              [Check (VInt 1)] (VInt 1) (VInt 1) eq_refl) as [H _].
  exact H.
Defined.




(** ** Protocol: what the drivers pass on and return *)

Lemma encode_as_decode {G : Type} (cls : validator_class G)
    (d : value) (args : list value) (kwargs : gmap string value) :
  encode cls d args kwargs = decode (swap_codec cls) d args kwargs.
Proof. reflexivity. Qed.

(** X8.  [decode] and [encode] pass the keyword arguments on as they got
    them, with [validation] set to "strict" when the caller gave none: a
    call without [validation] is the call with [validation='strict'], and
    every other keyword reaches the generator unchanged. *)
Theorem decode_forwards_kwargs {G : Type} (cls : validator_class G)
    (d : value) (args : list value) (kwargs : gmap string value) :
  let mode := default (VStr "strict") (kwargs !! "validation") in
  decode cls d args kwargs =
    for_in (call_gen (iter_decode cls d args (<["validation" := mode]> kwargs)))
      (first_chunk mode) (Ok VNone) /\
  encode cls d args kwargs =
    for_in (call_gen (iter_encode cls d args (<["validation" := mode]> kwargs)))
      (first_chunk mode) (Ok VNone) /\
  decode cls d args kwargs = decode cls d args (<["validation" := mode]> kwargs) /\
  encode cls d args kwargs = encode cls d args (<["validation" := mode]> kwargs).
Proof.
  intros mode. unfold mode. split; [|split; [|split]].
  - by rewrite decode_unfold, passed_kwargs_insert.
  - by rewrite encode_unfold, passed_kwargs_insert.
  - apply decode_with_mode.
  - rewrite !encode_as_decode. apply decode_with_mode.
Qed.

(** X9.  In strict mode, which is also the mode of a call without
    [validation], what [decode] or [encode] returns is never a validation
    error. *)
Theorem strict_never_returns_error {G : Type} (cls : validator_class G)
    (d : value) (args : list value) (kwargs : gmap string value) (v : value) :
  py_eq (default (VStr "strict") (kwargs !! "validation")) (VStr "strict") = true ->
  (decode cls d args kwargs = Ok v ->
   isinstance_XMLSchemaValidationError v = false) /\
  (encode cls d args kwargs = Ok v ->
   isinstance_XMLSchemaValidationError v = false).
Proof.
  intros Hmode.
  assert (Hfor : forall it,
            for_in it (first_chunk (default (VStr "strict") (kwargs !! "validation")))
              (Ok VNone) = Ok v ->
            isinstance_XMLSchemaValidationError v = false).
  { intros it. rewrite for_in_first_chunk, Hmode.
    destruct (gen_next it) as [[chunk| |e] k]; try discriminate.
    - rewrite andb_true_r.
      destruct (isinstance_XMLSchemaValidationError chunk) eqn:Hc; [discriminate|].
      by intros [= <-].
    - by intros [= <-]. }
  split; intros H.
  - rewrite decode_unfold in H. by apply Hfor in H.
  - rewrite encode_unfold in H. by apply Hfor in H.
Qed.

Lemma strict_never_returns_error_witness :
  decode (sample_component value_between_errors) (VStr "<a/>") [] ∅ = Ok (VStr "a") /\
  isinstance_XMLSchemaValidationError (VStr "a") = false.
Proof.
  split; [reflexivity|].
  apply (strict_never_returns_error (sample_component value_between_errors)
           (VStr "<a/>") [] ∅ (VStr "a")); reflexivity.
Defined.

(** X10.  When the first chunk of the stream is not a validation error,
    [decode] and [encode] return it in every mode, whatever follows it in
    the stream: later errors, and an exception the generator would raise
    later, are never reached. *)
Theorem leading_value_returned {G : Type} (cls : validator_class G)
    (d : value) (args : list value) (kwargs : gmap string value)
    (v : value) (k : gen value) :
  isinstance_XMLSchemaValidationError v = false ->
  (iter_decode cls d args (passed_kwargs kwargs) = Ok (GYield v k) ->
   decode cls d args kwargs = Ok v) /\
  (iter_encode cls d args (passed_kwargs kwargs) = Ok (GYield v k) ->
   encode cls d args kwargs = Ok v).
Proof.
  intros Hv. split; intros Hcall.
  - rewrite decode_unfold, Hcall, for_in_first_chunk. simpl. by rewrite Hv.
  - rewrite encode_unfold, Hcall, for_in_first_chunk. simpl. by rewrite Hv.
Qed.

Lemma leading_value_returned_witness :
  decode (sample_component value_between_errors) (VStr "<a/>") []
    {["validation" := VStr "strict"]} = Ok (VStr "a") /\
  validate (sample_component value_between_errors) (VStr "<a/>") (VBool true)
    = Raise (Raised (VError 1 "out of range")).
Proof.
  split; [|reflexivity].
  apply (leading_value_returned (sample_component value_between_errors)
           (VStr "<a/>") [] {["validation" := VStr "strict"]} (VStr "a")
           (GYield (VError 1 "out of range")
              (GYield (VInt 3)
                 (GYield (VError 2 "missing") (GRaise NotImplementedError)))));
    reflexivity.
Defined.

(** X11.  [is_valid] and [validate] agree: [is_valid] returns [True]
    exactly when [validate] returns; when [is_valid] returns [False],
    [validate] raises a validation error; an exception out of [is_valid] is
    the one out of [validate]; and [validate] returns nothing but [None]. *)
Theorem is_valid_agrees_with_validate {G : Type} (cls : validator_class G)
    (d use_defaults : value) :
  (is_valid cls d use_defaults = Ok true <->
   validate cls d use_defaults = Ok VNone) /\
  (is_valid cls d use_defaults = Ok false <->
   exists error k,
     iter_errors cls d VNone use_defaults = GYield error k /\
     isinstance_XMLSchemaValidationError error = true /\
     validate cls d use_defaults = Raise (Raised error)) /\
  (forall e, is_valid cls d use_defaults = Raise e ->
             validate cls d use_defaults = Raise e) /\
  (forall v, validate cls d use_defaults = Ok v -> v = VNone).
Proof.
  rewrite validate_unfold. unfold is_valid, is_valid_pull, py_next.
  destruct (iter_errors cls d VNone use_defaults) as [|chunk k|e] eqn:Herr; simpl.
  - repeat split; try done; try congruence.
    intros (error & k & H & _); discriminate H.
  - pose proof (iter_errors_yields cls d VNone use_defaults chunk k Herr) as Hc.
    destruct chunk; try discriminate Hc. simpl.
    repeat split; try done; try congruence.
    intros _. eexists _, k. by repeat split.
  - repeat split; try done; try congruence.
    intros (error & k & H & _); discriminate H.
Qed.

Lemma iter_errors_loop_skips (pre : list value) (it : gen value) :
  Forall (fun chunk => isinstance_XMLSchemaValidationError chunk = false) pre ->
  iter_errors_loop (yield_all pre it) = iter_errors_loop it.
Proof.
  induction 1 as [|chunk pre Hc _ IH]; simpl; [done|].
  by rewrite Hc.
Qed.

(** X12.  [validate] raises the first validation error of the lax stream in
    stream order: the decoded values before it are passed over, and what
    comes after it is not reached.  [is_valid] is then [False], and the
    error iterator is left suspended right after that error. *)
Theorem validate_raises_first_error {G : Type} (cls : validator_class G)
    (d use_defaults : value) (pre : list value) (error : value) (k : gen value) :
  iter_decode cls d [VNone] (lax_kwargs use_defaults)
    = Ok (yield_all pre (GYield error k)) ->
  Forall (fun chunk => isinstance_XMLSchemaValidationError chunk = false) pre ->
  isinstance_XMLSchemaValidationError error = true ->
  validate cls d use_defaults = Raise (Raised error) /\
  is_valid_pull cls d use_defaults = (Ok false, iter_errors_loop k).
Proof.
  intros Hcall Hpre Herr.
  assert (Hit : iter_errors cls d VNone use_defaults
                = GYield error (iter_errors_loop k)).
  { rewrite iter_errors_unfold, Hcall. simpl.
    rewrite iter_errors_loop_skips by done. simpl. by rewrite Herr. }
  split.
  - by rewrite validate_unfold, Hit.
  - unfold is_valid_pull, py_next. rewrite Hit. simpl.
    by destruct error.
Qed.

Lemma validate_raises_first_error_witness :
  validate (sample_component value_between_errors) (VStr "<a/>") (VBool true)
    = Raise (Raised (VError 1 "out of range")) /\
  is_valid_pull (sample_component value_between_errors) (VStr "<a/>") (VBool true)
    = (Ok false,
       iter_errors_loop
         (GYield (VInt 3) (GYield (VError 2 "missing") (GRaise NotImplementedError)))).
Proof.
  apply (validate_raises_first_error (sample_component value_between_errors)
           (VStr "<a/>") (VBool true) [VStr "a"] (VError 1 "out of range")
           (GYield (VInt 3) (GYield (VError 2 "missing") (GRaise NotImplementedError))));
    [reflexivity | by repeat constructor | reflexivity].
Defined.

Lemma iter_errors_loop_idem (it : gen value) :
  iter_errors_loop (iter_errors_loop it) = iter_errors_loop it.
Proof.
  induction it as [|chunk k IH|e]; simpl; trivial.
  destruct (isinstance_XMLSchemaValidationError chunk) eqn:Hc; simpl; [|done].
  by rewrite Hc, IH.
Qed.

Lemma filter_sublist (f : value -> bool) (l : list value) :
  sublist (List.filter f l) l.
Proof.
  induction l as [|x l IH]; simpl; [constructor|].
  destruct (f x); by constructor.
Qed.

(** X13.  Every item [iter_errors] yields is a validation error; its items
    are a subsequence, in order, of the chunks of the lax stream; and
    filtering its output once more changes nothing. *)
Theorem iter_errors_yields_only_errors {G : Type} (cls : validator_class G)
    (d path use_defaults : value) :
  Forall (fun chunk => isinstance_XMLSchemaValidationError chunk = true)
    (gen_items (iter_errors cls d path use_defaults)) /\
  sublist (gen_items (iter_errors cls d path use_defaults))
    (gen_items (call_gen (iter_decode cls d [path] (lax_kwargs use_defaults)))) /\
  iter_errors_loop (iter_errors cls d path use_defaults)
    = iter_errors cls d path use_defaults.
Proof.
  rewrite iter_errors_unfold, iter_errors_loop_items. split; [|split].
  - apply Forall_forall. intros chunk Hin.
    apply list_elem_of_In, filter_In in Hin. tauto.
  - apply filter_sublist.
  - apply iter_errors_loop_idem.
Qed.

(** X14.  A class that inherits [iter_encode] from the base class raises
    [NotImplementedError] from [encode] (and its alias [to_etree]) on every
    call whose arguments the signature of [iter_encode] accepts, in every
    mode; on any call at all [encode] raises, and never a validation error.
    Its [decode] and [iter_errors] run on its own [iter_decode]. *)
Theorem unimplemented_iter_encode_raises {G : Type}
    (tok : G -> result value)
    (dec : value -> list value -> gmap string value -> result (gen value))
    (d : value) (args : list value) (kwargs : gmap string value)
    (use_defaults : value) :
  let cls := without_iter_encode tok dec in
  (bind_arguments iter_encode_parameters args (passed_kwargs kwargs) = Ok tt ->
   encode cls d args kwargs = Raise NotImplementedError /\
   to_etree cls d args kwargs = Raise NotImplementedError /\
   forall mode : value,
     encode cls d args (<["validation" := mode]> kwargs) = Raise NotImplementedError) /\
  (exists e, encode cls d args kwargs = Raise e /\ is_validation_exn e = false) /\
  decode cls d args kwargs =
    for_in (call_gen (dec d args (passed_kwargs kwargs)))
      (first_chunk (default (VStr "strict") (kwargs !! "validation"))) (Ok VNone) /\
  gen_items (iter_errors cls d VNone use_defaults) =
    List.filter isinstance_XMLSchemaValidationError
      (gen_items (call_gen (dec d [VNone] (lax_kwargs use_defaults)))).
Proof.
  intros cls.
  assert (Hencode : forall kw,
            bind_arguments iter_encode_parameters args (passed_kwargs kw) = Ok tt ->
            encode cls d args kw = Raise NotImplementedError).
  { intros kw Hbind. rewrite encode_unfold. simpl. by rewrite Hbind. }
  split; [|split; [|split]].
  - intros Hbind. split; [by apply Hencode|]. split; [by apply Hencode|].
    intros mode. apply Hencode.
    by rewrite (bind_arguments_dom _ _ _ (passed_kwargs kwargs))
      by apply passed_kwargs_dom.
  - rewrite encode_unfold. simpl. unfold bind_arguments.
    case_bool_decide; simpl; eexists; by split.
  - apply decode_unfold.
  - rewrite iter_errors_unfold. apply iter_errors_loop_items.
Qed.

Lemma unimplemented_iter_encode_raises_witness :
  encode (without_iter_encode (fun _ : unit => Ok (VInt 1)) (fun _ _ _ => Ok GStop))
    (VStr "x") [] {["indent" := VInt 2]} = Raise NotImplementedError /\
  encode (without_iter_encode (fun _ : unit => Ok (VInt 1)) (fun _ _ _ => Ok GStop))
    (VStr "x") [] (<["validation" := VStr "skip"]> {["indent" := VInt 2]})
    = Raise NotImplementedError.
Proof.
  destruct (unimplemented_iter_encode_raises (fun _ : unit => Ok (VInt 1))
              (fun _ _ _ => Ok GStop) (VStr "x") [] {["indent" := VInt 2]}
              (VBool true)) as [Hbound _].
  destruct (Hbound eq_refl) as (Hdefault & _ & Hmode).
  split; [exact Hdefault | exact (Hmode (VStr "skip"))].
Defined.

(** X15.  The mode is compared with 'strict' and nothing else: with any
    other value of [validation], one of [XSD_VALIDATION_MODES] or not, a
    stream that starts with a validation error makes [decode] and [encode]
    return that error as their result. *)
Theorem non_strict_returns_leading_error {G : Type} (cls : validator_class G)
    (d : value) (args : list value) (kwargs : gmap string value)
    (mode error : value) (k : gen value) :
  kwargs !! "validation" = Some mode ->
  py_eq mode (VStr "strict") = false ->
  isinstance_XMLSchemaValidationError error = true ->
  (iter_decode cls d args kwargs = Ok (GYield error k) ->
   decode cls d args kwargs = Ok error) /\
  (iter_encode cls d args kwargs = Ok (GYield error k) ->
   encode cls d args kwargs = Ok error).
Proof.
  intros Hmode Hne Herr.
  assert (Hkw : passed_kwargs kwargs = kwargs).
  { rewrite passed_kwargs_insert, Hmode. simpl. by apply insert_id. }
  split; intros Hcall.
  - rewrite decode_unfold, Hkw, Hcall, for_in_first_chunk, Hmode. simpl.
    by rewrite Hne, andb_false_r.
  - rewrite encode_unfold, Hkw, Hcall, for_in_first_chunk, Hmode. simpl.
    by rewrite Hne, andb_false_r.
Qed.

Lemma non_strict_returns_leading_error_witness :
  decode (sample_component error_then_value) (VStr "<a/>") []
    {["validation" := VStr "STRICT"]} = Ok (VError 1 "missing required field").
Proof.
  apply (non_strict_returns_leading_error (sample_component error_then_value)
           (VStr "<a/>") [] {["validation" := VStr "STRICT"]} (VStr "STRICT")
           (VError 1 "missing required field") (GYield (VStr "x") GStop));
    reflexivity.
Defined.

(** X16.  [iter_errors], [validate] and [is_valid] see a class through its
    [iter_decode] in lax mode only: two classes that agree on that call
    (with [path] and [use_defaults] as passed) give the same errors, the
    same outcome of [validate] and the same answer of [is_valid], whatever
    they do in the other modes, in [iter_encode] and in [check_token]. *)
Theorem validation_depends_on_lax_call {G H : Type}
    (cls1 : validator_class G) (cls2 : validator_class H)
    (d use_defaults : value) :
  iter_decode cls1 d [VNone] (lax_kwargs use_defaults)
    = iter_decode cls2 d [VNone] (lax_kwargs use_defaults) ->
  iter_errors cls1 d VNone use_defaults = iter_errors cls2 d VNone use_defaults /\
  validate cls1 d use_defaults = validate cls2 d use_defaults /\
  is_valid cls1 d use_defaults = is_valid cls2 d use_defaults.
Proof.
  intros Hcall.
  assert (Hit : iter_errors cls1 d VNone use_defaults
                = iter_errors cls2 d VNone use_defaults).
  { by rewrite !iter_errors_unfold, Hcall. }
  split; [done|]. split.
  - by rewrite !validate_unfold, Hit.
  - unfold is_valid, is_valid_pull. by rewrite Hit.
Qed.

Lemma validation_depends_on_lax_call_witness :
  validate (sample_component strict_only_error) (VStr "<a/>") (VBool true)
  = validate (without_iter_encode (fun _ : unit => Raise NotImplementedError)
                (fun _ _ _ => Ok (GYield (VStr "x") GStop)))
      (VStr "<a/>") (VBool true).
Proof.
  apply (validation_depends_on_lax_call (sample_component strict_only_error)
           (without_iter_encode (fun _ : unit => Raise NotImplementedError)
              (fun _ _ _ => Ok (GYield (VStr "x") GStop)))
           (VStr "<a/>") (VBool true)).
  reflexivity.
Defined.
